(** * Industrial QR OTP server: lead capture, OTP verification, export

    A shallow embedding of the three API handlers of [server.js]
    ([POST /api/send-otp], [POST /api/verify-otp], [GET /api/export-leads])
    and of the [leads] table of [db.js], with the properties of the
    lead-capture workflow proved about them.

    Modelling conventions.
    - A request body field is a [JsValue]: the parsed JSON value, or
      [JUndefined] when the field is missing.  JavaScript strings are
      modelled as [string] (sequences of 8-bit characters): the only
      inspection the handlers make of a string's content is the regular
      expression [\D], which keeps exactly the ASCII digits 0-9, so the
      encoding of characters outside ASCII is not observable.
    - The in-memory object [leads] is a [gmap string Session].  Every key
      the handlers use starts with [+], so no key can reach a property
      inherited from [Object.prototype].
    - The SQLite database, the Twilio Verify client and the spreadsheet
      encoder are external.  Their answers to one request are collected in
      an environment record given to the handler; the calls made to them
      are recorded, in program order, in a trace of [Event]s.
    - A handler returns the new state, the trace, and its [Outcome]: the
      HTTP response it sent, or the exception with which it stopped
      before sending one.  The callback of [db.run] is taken at the point
      of the call. *)

From Stdlib Require Import ZArith NArith Ascii String Bool List Sorted Lia.
From stdpp Require Import gmap strings list.

Local Open Scope string_scope.
Local Open Scope Z_scope.
Local Open Scope list_scope.

(** ** JavaScript values and the built-ins the handlers use *)

Module Js.

(** A parsed body value.  [JNum] stands for a JSON number (the handlers
    only ever test a number for being zero); [JObject] stands for any
    array or object: it is truthy and no property of it is callable. *)
Inductive JsValue : Type :=
| JUndefined
| JNull
| JBool (b : bool)
| JNum (n : Z)
| JStr (s : string)
| JObject.

Inductive JsError : Type :=
| TypeError (message : string)
| Error (message : string).

(** [ToBoolean]: what [!v] and [if (v)] test. *)
Definition truthy (v : JsValue) : bool :=
  match v with
  | JUndefined | JNull => false
  | JBool b => b
  | JNum n => negb (Z.eqb n 0)
  | JStr s => negb (String.eqb s EmptyString)
  | JObject => true
  end.

(** [a || b] on values. *)
Definition or_else (a b : JsValue) : JsValue :=
  if truthy a then a else b.

(** The character class [\d] (without the [u] flag): 0-9 only. *)
Definition is_digit (c : ascii) : bool :=
  ((48 <=? N_of_ascii c) && (N_of_ascii c <=? 57))%N.

(** [s.replace(/\D/g, '')]: every character matching [\D] is replaced by
    the empty string. *)
Fixpoint replace_D_g (s : string) : string :=
  match s with
  | EmptyString => EmptyString
  | String c rest =>
      if is_digit c then String c (replace_D_g rest) else replace_D_g rest
  end.

(** [s.split(sep)[0]] for a one-character separator. *)
Fixpoint split_first (sep : ascii) (s : string) : string :=
  match s with
  | EmptyString => EmptyString
  | String c rest =>
      if Ascii.eqb c sep then EmptyString else String c (split_first sep rest)
  end.

End Js.
Export Js.

(** ** The [leads] table of [db.js] *)

Module Db.

(** One row of
    [leads(id INTEGER PRIMARY KEY AUTOINCREMENT, name TEXT NOT NULL,
           phone TEXT NOT NULL, catalog_code TEXT,
           created_at DATETIME DEFAULT CURRENT_TIMESTAMP)].
    [name] and [catalog_code] hold the values bound to the statement. *)
Record Row : Type := {
  row_id : Z;
  row_name : JsValue;
  row_phone : string;
  row_catalog_code : JsValue;
  row_created_at : string
}.

(** The table in rowid order and the AUTOINCREMENT sequence (the largest
    rowid ever handed out). *)
Record Table : Type := {
  rows : list Row;
  seq : Z
}.

Definition empty : Table := {| rows := []; seq := 0 |}.

(** What the database file does for one statement: it runs (the clock
    then gives CURRENT_TIMESTAMP), or fails with an I/O error. *)
Inductive Io : Type :=
| IoOk (current_timestamp : string)
| IoErr (message : string).

Definition sql_null (v : JsValue) : bool :=
  match v with
  | JUndefined | JNull => true
  | _ => false
  end.

(** [INSERT INTO leads (name, phone, catalog_code) VALUES (?, ?, ?)]:
    the error handed to the callback ([None] for success) and the table
    afterwards.  A failed statement leaves the table as it was. *)
Definition insert_lead (io : Io) (name : JsValue) (phone : string)
    (catalog_code : JsValue) (t : Table) : option string * Table :=
  match io with
  | IoErr message => (Some message, t)
  | IoOk now =>
      if sql_null name then
        (Some "SQLITE_CONSTRAINT: NOT NULL constraint failed: leads.name", t)
      else
        let id := seq t + 1 in
        (None,
         {| rows := rows t ++
              [ {| row_id := id; row_name := name; row_phone := phone;
                   row_catalog_code := catalog_code;
                   row_created_at := now |} ];
            seq := id |})
  end.

(** [SELECT id, name, phone, catalog_code, created_at FROM leads]:
    the pair [(err, rows)] given to the callback. *)
Definition select_leads (io : Io) (t : Table)
    : option string * option (list Row) :=
  match io with
  | IoErr message => (Some message, None)
  | IoOk _ => (None, Some (rows t))
  end.

End Db.

(** ** The spreadsheet library, as far as the export uses it *)

Module XLSX.

(** A row object: its own properties in insertion order. *)
Definition JsObject : Type := list (string * JsValue).

Record Worksheet : Type := {
  header : list string;
  data : list (list JsValue);
  cols : list Z
}.

Definition Workbook : Type := list (string * Worksheet).

Definition book_new : Workbook := [].

Fixpoint get (o : JsObject) (key : string) : JsValue :=
  match o with
  | [] => JUndefined
  | (k, v) :: rest => if String.eqb k key then v else get rest key
  end.

Definition mem (key : string) (keys : list string) : bool :=
  existsb (String.eqb key) keys.

(** The keys of the objects in order of first appearance. *)
Fixpoint add_keys (seen : list string) (o : JsObject) : list string :=
  match o with
  | [] => seen
  | (k, _) :: rest =>
      add_keys (if mem k seen then seen else seen ++ [k]) rest
  end.

Definition all_keys (objs : list JsObject) : list string :=
  fold_left add_keys objs [].

(** [json_to_sheet]: a header line of the keys, then one line per
    object holding its value for every key of the header. *)
Definition json_to_sheet (objs : list JsObject) : Worksheet :=
  let hdr := all_keys objs in
  {| header := hdr;
     data := map (fun o => map (get o) hdr) objs;
     cols := [] |}.

Definition set_cols (ws : Worksheet) (widths : list Z) : Worksheet :=
  {| header := header ws; data := data ws; cols := widths |}.

Definition book_append_sheet (wb : Workbook) (ws : Worksheet)
    (name : string) : Workbook :=
  wb ++ [(name, ws)].

End XLSX.

(** ** Server state, environment, trace and outcome *)

(** The value stored under a phone number in [leads]. *)
Module Lead.
Record Session : Type := {
  name : JsValue;
  phone : string;
  verified : bool
}.
End Lead.
Abbreviation Session := Lead.Session.

Record State : Type := {
  leads : gmap string Session;
  db : Db.Table
}.

Definition initial : State := {| leads := ∅; db := Db.empty |}.

(** Answers of the Twilio Verify service. *)
Inductive SendAnswer : Type :=
| Sent (sid : string)
| SendFails (message : string).

Inductive CheckAnswer : Type :=
| Checked (status : string)
| CheckFails (message : string).

(** The collaborators as one request sees them. *)
Record Env : Type := {
  db_io : Db.Io;
  verifications_create : string -> string -> SendAnswer;
  verificationChecks_create : string -> JsValue -> CheckAnswer;
  now_iso : string;
  xlsx_write : XLSX.Workbook -> option string
}.

Inductive Event : Type :=
| DbRunInsert (name : JsValue) (phone : string) (catalog_code : JsValue)
| DbAllSelect
| VerificationsCreate (to channel : string)
| VerificationChecksCreate (to : string) (code : JsValue)
| ConsoleLog (text arg : string)
| ConsoleError (text arg : string).

Inductive Body : Type :=
| Json (success : bool) (message : option string)
| Buffer (workbook : XLSX.Workbook).

Record Response : Type := {
  status : Z;
  headers : list (string * string);
  body : Body
}.

Inductive Outcome : Type :=
| Replied (r : Response)
| Rejected (e : JsError).

Definition Result : Type := State * list Event * Outcome.

(** [res.status(code).json(...)] ([res.json] alone is status 200).
    [headers] lists what the handler itself set with [res.setHeader]. *)
Definition json (code : Z) (success : bool) (message : option string)
    : Outcome :=
  Replied {| status := code; headers := []; body := Json success message |}.

(** The request bodies after destructuring. *)
Record SendBody : Type := {
  send_name : JsValue;
  send_phone : JsValue;
  send_catalogCode : JsValue
}.

Record VerifyBody : Type := {
  verify_phone : JsValue;
  verify_otp : JsValue
}.

(** A sequence of requests, each with the environment it runs in. *)
Inductive Request : Type :=
| SendOtp (env : Env) (req : SendBody)
| VerifyOtp (env : Env) (req : VerifyBody)
| ExportLeads (env : Env).

(** ** The handlers *)

(** [POST /api/send-otp] (submitLead). *)
Definition post_send_otp (env : Env) (req : SendBody) (st : State) : Result :=
  let name := send_name req in
  let phone := send_phone req in
  let catalogCode := send_catalogCode req in
  if negb (truthy name) || negb (truthy phone) then
    (st, [], json 400 false (Some "Name and phone are required"))
  else
    match phone with
    | JStr p =>
        let normalizedPhone := "+" +:+ replace_D_g p in
        (* try *)
        let leads' :=
          <[normalizedPhone :=
              {| Lead.name := name; Lead.phone := normalizedPhone;
                 Lead.verified := false |}]>
            (leads st) in
        let '(err, db') :=
          Db.insert_lead (db_io env) name normalizedPhone
            (or_else catalogCode JNull) (db st) in
        let st' := {| leads := leads'; db := db' |} in
        let called :=
          [ DbRunInsert name normalizedPhone (or_else catalogCode JNull);
            match err with
            | Some message => ConsoleError "DB insert lead error:" message
            | None => ConsoleLog "Lead stored in DB for" normalizedPhone
            end;
            VerificationsCreate normalizedPhone "sms" ] in
        match verifications_create env normalizedPhone "sms" with
        | Sent sid =>
            (st', called ++ [ConsoleLog "Twilio OTP sent:" sid],
             json 200 true None)
        | SendFails message =>
            (* catch *)
            (st', called ++ [ConsoleError "Send OTP error:" message],
             json 500 false (Some "Failed to send OTP"))
        end
    | _ =>
        (* [phone.replace] is not a function; the statement is outside
           the [try] block *)
        (st, [], Rejected (TypeError "phone.replace is not a function"))
    end.

(** [POST /api/verify-otp] (verifyLead). *)
Definition post_verify_otp (env : Env) (req : VerifyBody) (st : State)
    : Result :=
  let phone := verify_phone req in
  let otp := verify_otp req in
  if negb (truthy phone) || negb (truthy otp) then
    (st, [], json 400 false (Some "Phone and OTP are required"))
  else
    match phone with
    | JStr p =>
        let normalizedPhone := "+" +:+ replace_D_g p in
        (* try *)
        let called := VerificationChecksCreate normalizedPhone otp in
        match verificationChecks_create env normalizedPhone otp with
        | Checked status =>
            let logged := ConsoleLog "Verification status:" status in
            if String.eqb status "approved" then
              let leads' :=
                match leads st !! normalizedPhone with
                | Some lead =>
                    <[normalizedPhone :=
                        {| Lead.name := Lead.name lead;
                           Lead.phone := Lead.phone lead;
                           Lead.verified := true |}]> (leads st)
                | None => leads st
                end in
              ({| leads := leads'; db := db st |}, [called; logged],
               json 200 true None)
            else
              (st, [called; logged], json 400 false (Some "Invalid OTP"))
        | CheckFails message =>
            (* catch *)
            (st, [called; ConsoleError "Verify OTP error:" message],
             json 500 false (Some "OTP verification failed"))
        end
    | _ =>
        (st, [], Rejected (TypeError "phone.replace is not a function"))
    end.

(** The object sqlite3 builds for a selected row: one property per
    selected column, in the order of the SELECT list. *)
Definition row_object (r : Db.Row) : XLSX.JsObject :=
  [ ("id", JNum (Db.row_id r));
    ("name", Db.row_name r);
    ("phone", JStr (Db.row_phone r));
    ("catalog_code", Db.row_catalog_code r);
    ("created_at", JStr (Db.row_created_at r)) ].

Definition dquote : string := String (ascii_of_N 34) EmptyString.

Definition xlsx_mime : string :=
  "application/vnd.openxmlformats-officedocument.spreadsheetml.sheet".

(** [GET /api/export-leads] (exportAll). *)
Definition get_export_leads (env : Env) (st : State) : Result :=
  match Db.select_leads (db_io env) (db st) with
  | (Some message, _) =>
      (st, [DbAllSelect; ConsoleError "DB query error:" message],
       json 500 false (Some "Error fetching leads"))
  | (None, None) | (None, Some []) =>
      (st, [DbAllSelect], json 400 false (Some "No leads to export"))
  | (None, Some rows) =>
      (* try *)
      let workbook := XLSX.book_new in
      let worksheet :=
        XLSX.set_cols (XLSX.json_to_sheet (map row_object rows))
          [5; 20; 15; 20; 20] in
      let workbook := XLSX.book_append_sheet workbook worksheet "Leads" in
      let filename := "leads_" +:+ split_first "T" (now_iso env) +:+ ".xlsx" in
      let set_headers :=
        [ ("Content-Type", xlsx_mime);
          ("Content-Disposition",
           "attachment; filename=" +:+ dquote +:+ filename +:+ dquote) ] in
      match xlsx_write env workbook with
      | None =>
          (st, [DbAllSelect],
           Replied {| status := 200; headers := set_headers;
                      body := Buffer workbook |})
      | Some message =>
          (* catch *)
          (st, [DbAllSelect; ConsoleError "Export error:" message],
           Replied {| status := 500; headers := set_headers;
                      body := Json false (Some "Error exporting leads") |})
      end
  end.

Definition handle (r : Request) (st : State) : Result :=
  match r with
  | SendOtp env req => post_send_otp env req st
  | VerifyOtp env req => post_verify_otp env req st
  | ExportLeads env => get_export_leads env st
  end.

Definition state_of (r : Result) : State := fst (fst r).
Definition trace_of (r : Result) : list Event := snd (fst r).
Definition outcome_of (r : Result) : Outcome := snd r.

(** The state after serving the requests one after the other. *)
Fixpoint run (rs : list Request) (st : State) : State :=
  match rs with
  | [] => st
  | r :: rest => run rest (state_of (handle r st))
  end.

(** ** Vocabulary of the specification *)

(** The session states of the specification, read off the [leads] map. *)
Inductive SessionState : Type := NONE | PENDING | VERIFIED.

Definition session_state (st : State) (key : string) : SessionState :=
  match leads st !! key with
  | None => NONE
  | Some lead => if Lead.verified lead then VERIFIED else PENDING
  end.

(** The digit characters of a string, in order. *)
Definition digit_chars (s : string) : list ascii :=
  List.filter is_digit (list_ascii_of_string s).

(** The canonical form the specification describes: [+], then the digits. *)
Definition plus_digits (s : string) : string :=
  String "+" (string_of_list_ascii (digit_chars s)).

(** A string in canonical form. *)
Definition is_normalized (s : string) : bool :=
  match s with
  | String "+" d => forallb is_digit (list_ascii_of_string d)
  | _ => false
  end.

(** A field that is missing ([undefined], [null]) or the empty string. *)
Definition missing_or_empty (v : JsValue) : Prop :=
  v = JUndefined \/ v = JNull \/ v = JStr EmptyString.

(** The session [submitLead] writes. *)
Definition pending (name : JsValue) (key : string) : Session :=
  {| Lead.name := name; Lead.phone := key; Lead.verified := false |}.

(** The numbers handed to the provider in a trace. *)
Definition sent_to (t : list Event) : list string :=
  flat_map (fun e => match e with
                     | VerificationsCreate to _ => [to]
                     | _ => []
                     end) t.

Definition checked_to (t : list Event) : list string :=
  flat_map (fun e => match e with
                     | VerificationChecksCreate to _ => [to]
                     | _ => []
                     end) t.

(** The rows the INSERT statements of a trace ask for. *)
Definition inserted (t : list Event) : list (JsValue * string * JsValue) :=
  flat_map (fun e => match e with
                     | DbRunInsert n p c => [(n, p, c)]
                     | _ => []
                     end) t.

(** The same collaborators with another answer of the database. *)
Definition with_db_io (io : Db.Io) (env : Env) : Env :=
  {| db_io := io;
     verifications_create := verifications_create env;
     verificationChecks_create := verificationChecks_create env;
     now_iso := now_iso env;
     xlsx_write := xlsx_write env |}.

(** The session after [leads[normalizedPhone].verified = true]. *)
Definition mark_verified (lead : Session) : Session :=
  {| Lead.name := Lead.name lead; Lead.phone := Lead.phone lead;
     Lead.verified := true |}.

(** A valid submission for the phone number [key]. *)
Definition resubmits (key : string) (r : Request) : bool :=
  match r with
  | SendOtp _ req =>
      truthy (send_name req) &&
      match send_phone req with
      | JStr p => negb (String.eqb p EmptyString)
                  && String.eqb (plus_digits p) key
      | _ => false
      end
  | _ => false
  end.

(** The invariant of a stored record: a name that is present and not the
    empty string, and a phone in canonical form. *)
Definition row_ok (r : Db.Row) : Prop :=
  ~ missing_or_empty (Db.row_name r)
  /\ is_normalized (Db.row_phone r) = true.

(** A submission that passes the checks while the database works. *)
Definition stores (r : Request) : bool :=
  match r with
  | SendOtp env req =>
      truthy (send_name req) &&
      match send_phone req with
      | JStr p => negb (String.eqb p EmptyString)
      | _ => false
      end &&
      match db_io env with
      | Db.IoOk _ => true
      | Db.IoErr _ => false
      end
  | _ => false
  end.

Definition lead_columns : list string :=
  ["id"; "name"; "phone"; "catalog_code"; "created_at"].

(** The line of the sheet for a row of the table. *)
Definition row_cells (r : Db.Row) : list JsValue :=
  [ JNum (Db.row_id r); Db.row_name r; JStr (Db.row_phone r);
    Db.row_catalog_code r; JStr (Db.row_created_at r) ].

(** The phone number a request is about, when its [phone] is a string. *)
Definition request_key (r : Request) : option string :=
  match r with
  | SendOtp _ req =>
      match send_phone req with
      | JStr p => Some (plus_digits p)
      | _ => None
      end
  | VerifyOtp _ req =>
      match verify_phone req with
      | JStr p => Some (plus_digits p)
      | _ => None
      end
  | ExportLeads _ => None
  end.

(** A verification request for the phone number [key] that passes the
    presence check and that the provider approves. *)
Definition approves (key : string) (r : Request) : bool :=
  match r with
  | VerifyOtp env req =>
      truthy (verify_otp req) &&
      match verify_phone req with
      | JStr p =>
          negb (String.eqb p EmptyString)
          && String.eqb (plus_digits p) key
          && match verificationChecks_create env (plus_digits p)
                     (verify_otp req) with
             | Checked answer => String.eqb answer "approved"
             | CheckFails _ => false
             end
      | _ => false
      end
  | _ => false
  end.

(** What every entry of [leads] looks like: it is stored under its own
    [phone], that phone is in canonical form, and its [name] is truthy. *)
Definition sessions_ok (m : gmap string Session) : Prop :=
  forall key lead,
    m !! key = Some lead ->
    Lead.phone lead = key
    /\ is_normalized key = true
    /\ truthy (Lead.name lead) = true.

(** The ids of the table grow strictly along it and none is beyond the
    AUTOINCREMENT sequence. *)
Definition ids_ok (t : Db.Table) : Prop :=
  StronglySorted Z.lt (map Db.row_id (Db.rows t))
  /\ Forall (fun r => Db.row_id r <= Db.seq t) (Db.rows t).

(** Every row of the table has a session under its phone. *)
Definition rows_have_sessions (st : State) : Prop :=
  forall row,
    In row (Db.rows (db st)) -> is_Some (leads st !! Db.row_phone row).

(** The message texts the handlers put in a response. *)
Definition response_messages : list string :=
  [ "Name and phone are required";
    "Failed to send OTP";
    "Phone and OTP are required";
    "Invalid OTP";
    "OTP verification failed";
    "Error fetching leads";
    "No leads to export";
    "Error exporting leads" ].

(** The database errors a trace logs for INSERT statements. *)
Definition insert_errors (t : list Event) : list string :=
  flat_map (fun e => match e with
                     | ConsoleError "DB insert lead error:" message =>
                         [message]
                     | _ => []
                     end) t.

(** A string without the letter T. *)
Definition no_T (s : string) : bool :=
  forallb (fun c => negb (Ascii.eqb c "T")) (list_ascii_of_string s).

(** The contract of a response: a JSON body with [success: true] comes
    with status 200 and no message; one with [success: false] comes with
    status 400 or 500 and one of the fixed message texts; a document comes
    with status 200. *)
Definition reply_ok (o : Outcome) : Prop :=
  match o with
  | Rejected _ => True
  | Replied resp =>
      match body resp with
      | Json true message => status resp = 200 /\ message = None
      | Json false message =>
          (status resp = 400 \/ status resp = 500)
          /\ exists text, message = Some text /\ In text response_messages
      | Buffer _ => status resp = 200
      end
  end.

(** Sample collaborators: a database that works, a provider that sends
    and that approves the code 123456 only. *)
Definition sample_env : Env :=
  {| db_io := Db.IoOk "2024-05-01 10:00:00";
     verifications_create := fun _ _ => Sent "VE01";
     verificationChecks_create := fun _ code =>
       match code with
       | JStr "123456" => Checked "approved"
       | _ => Checked "pending"
       end;
     now_iso := "2024-05-01T10:00:00.000Z";
     xlsx_write := fun _ => None |}.

Definition alice : SendBody :=
  {| send_name := JStr "Alice"; send_phone := JStr "+1 555 111 2222";
     send_catalogCode := JUndefined |}.

Definition alice_code (code : string) : VerifyBody :=
  {| verify_phone := JStr "+1 555 111 2222"; verify_otp := JStr code |}.


(** ** Facts about the built-ins *)

Section Builtins.

Lemma truthy_string (s : string) :
  truthy (JStr s) = true <-> s <> EmptyString.
Proof.
  simpl. destruct (String.eqb_spec s EmptyString) as [-> | Hne]; simpl.
  - split; [discriminate | congruence].
  - split; [intros _; exact Hne | reflexivity].
Qed.

Lemma missing_or_empty_falsy (v : JsValue) :
  missing_or_empty v -> truthy v = false.
Proof. intros [-> | [-> | ->]]; reflexivity. Qed.

Lemma truthy_not_null (v : JsValue) :
  truthy v = true -> Db.sql_null v = false.
Proof. destruct v; simpl; congruence. Qed.

Lemma truthy_present (v : JsValue) :
  truthy v = true -> ~ missing_or_empty v.
Proof.
  intros Ht Hm. apply missing_or_empty_falsy in Hm. congruence.
Qed.

(** The regular-expression replacement keeps the digits, in order. *)
Lemma replace_D_g_digit_chars (s : string) :
  replace_D_g s = string_of_list_ascii (digit_chars s).
Proof.
  unfold digit_chars.
  induction s as [| c rest IH]; simpl; [reflexivity |].
  destruct (is_digit c); simpl; rewrite IH; reflexivity.
Qed.

Lemma normalizedPhone_plus_digits (p : string) :
  "+" +:+ replace_D_g p = plus_digits p.
Proof. unfold plus_digits. rewrite replace_D_g_digit_chars. reflexivity. Qed.

Lemma digit_chars_all_digits (s : string) :
  forallb is_digit (digit_chars s) = true.
Proof.
  unfold digit_chars. apply forallb_forall.
  intros c Hc. apply filter_In in Hc. tauto.
Qed.

Lemma plus_digits_normalized (p : string) :
  is_normalized (plus_digits p) = true.
Proof.
  unfold plus_digits, is_normalized.
  rewrite list_ascii_of_string_of_list_ascii.
  apply digit_chars_all_digits.
Qed.

(** Canonical forms are fixed points of the normalization. *)
Lemma plus_digits_idempotent (p : string) :
  plus_digits (plus_digits p) = plus_digits p.
Proof.
  unfold plus_digits at 1 3. f_equal. f_equal.
  unfold plus_digits, digit_chars. simpl.
  rewrite list_ascii_of_string_of_list_ascii.
  fold (digit_chars p).
  pose proof (digit_chars_all_digits p) as Hall.
  induction (digit_chars p) as [| c l IH]; simpl in *; [reflexivity |].
  apply andb_prop in Hall as [Hc Hl]. rewrite Hc, IH; auto.
Qed.

End Builtins.

(** ** The handlers on well-formed requests *)

Section Handlers.

Variable env : Env.
Variable st : State.

(** A submission that passes the presence check and whose phone is a
    string runs the whole [try] block. *)
Lemma post_send_otp_valid (name : JsValue) (p : string) (cat : JsValue) :
  truthy name = true ->
  p <> EmptyString ->
  let key := plus_digits p in
  let ins :=
    Db.insert_lead (db_io env) name key (or_else cat JNull) (db st) in
  post_send_otp env
    {| send_name := name; send_phone := JStr p; send_catalogCode := cat |}
    st
  = ({| leads := <[key := pending name key]> (leads st); db := snd ins |},
     [ DbRunInsert name key (or_else cat JNull);
       match fst ins with
       | Some message => ConsoleError "DB insert lead error:" message
       | None => ConsoleLog "Lead stored in DB for" key
       end;
       VerificationsCreate key "sms";
       match verifications_create env key "sms" with
       | Sent sid => ConsoleLog "Twilio OTP sent:" sid
       | SendFails message => ConsoleError "Send OTP error:" message
       end ],
     match verifications_create env key "sms" with
     | Sent _ => json 200 true None
     | SendFails _ => json 500 false (Some "Failed to send OTP")
     end).
Proof.
  intros Hname Hp key ins.
  apply truthy_string in Hp.
  unfold post_send_otp.
  cbn [send_name send_phone send_catalogCode].
  rewrite Hname, Hp. cbn [negb orb].
  rewrite normalizedPhone_plus_digits. fold key. fold ins.
  destruct ins as [err db'].
  cbn [fst snd].
  destruct (verifications_create env key "sms"); reflexivity.
Qed.

(** A request that fails the presence check is answered at once. *)
Lemma post_send_otp_invalid (req : SendBody) :
  truthy (send_name req) = false \/ truthy (send_phone req) = false ->
  post_send_otp env req st
  = (st, [], json 400 false (Some "Name and phone are required")).
Proof.
  intros H. unfold post_send_otp.
  destruct H as [-> | ->]; cbn [negb orb]; [reflexivity |].
  rewrite orb_true_r. reflexivity.
Qed.

(** A truthy phone that is not a string has no [replace] method. *)
Lemma post_send_otp_not_a_string (req : SendBody) :
  truthy (send_name req) = true ->
  truthy (send_phone req) = true ->
  (forall p, send_phone req <> JStr p) ->
  post_send_otp env req st
  = (st, [], Rejected (TypeError "phone.replace is not a function")).
Proof.
  intros Hn Hp Hs. unfold post_send_otp. rewrite Hn, Hp. cbn [negb orb].
  destruct (send_phone req); try reflexivity.
  exfalso. eapply Hs. reflexivity.
Qed.

(** A verification request that passes the presence check and whose
    phone is a string asks the provider. *)
Lemma post_verify_otp_valid (p : string) (otp : JsValue) :
  p <> EmptyString ->
  truthy otp = true ->
  let key := plus_digits p in
  post_verify_otp env {| verify_phone := JStr p; verify_otp := otp |} st
  = match verificationChecks_create env key otp with
    | Checked status =>
        if String.eqb status "approved" then
          ({| leads :=
                match leads st !! key with
                | Some lead =>
                    <[key := {| Lead.name := Lead.name lead;
                                Lead.phone := Lead.phone lead;
                                Lead.verified := true |}]> (leads st)
                | None => leads st
                end;
              db := db st |},
           [ VerificationChecksCreate key otp;
             ConsoleLog "Verification status:" status ],
           json 200 true None)
        else
          (st,
           [ VerificationChecksCreate key otp;
             ConsoleLog "Verification status:" status ],
           json 400 false (Some "Invalid OTP"))
    | CheckFails message =>
        (st,
         [ VerificationChecksCreate key otp;
           ConsoleError "Verify OTP error:" message ],
         json 500 false (Some "OTP verification failed"))
    end.
Proof.
  intros Hp Hotp key.
  apply truthy_string in Hp.
  unfold post_verify_otp.
  cbn [verify_phone verify_otp].
  rewrite Hp, Hotp. cbn [negb orb].
  rewrite normalizedPhone_plus_digits. fold key.
  reflexivity.
Qed.

End Handlers.

Lemma insert_lead_ok (now : string) (name : JsValue) (phone : string)
    (cat : JsValue) (t : Db.Table) :
  truthy name = true ->
  Db.insert_lead (Db.IoOk now) name phone cat t
  = (None,
     {| Db.rows := Db.rows t ++
          [ {| Db.row_id := Db.seq t + 1; Db.row_name := name;
               Db.row_phone := phone; Db.row_catalog_code := cat;
               Db.row_created_at := now |} ];
        Db.seq := Db.seq t + 1 |}).
Proof.
  intros Hname. unfold Db.insert_lead.
  rewrite (truthy_not_null _ Hname). reflexivity.
Qed.

(** Projections of a valid submission. *)
Section ValidSubmission.

Variable env : Env.
Variable st : State.
Variables name cat : JsValue.
Variable p : string.
Hypothesis Hname : truthy name = true.
Hypothesis Hp : p <> EmptyString.

Lemma submit_leads :
  leads (state_of (post_send_otp env
       {| send_name := name; send_phone := JStr p;
          send_catalogCode := cat |} st))
  = <[plus_digits p := pending name (plus_digits p)]> (leads st).
Proof. rewrite post_send_otp_valid by assumption. reflexivity. Qed.

Lemma submit_db :
  db (state_of (post_send_otp env
       {| send_name := name; send_phone := JStr p;
          send_catalogCode := cat |} st))
  = snd (Db.insert_lead (db_io env) name (plus_digits p)
           (or_else cat JNull) (db st)).
Proof. rewrite post_send_otp_valid by assumption. reflexivity. Qed.

Lemma submit_sent_to :
  sent_to (trace_of (post_send_otp env
       {| send_name := name; send_phone := JStr p;
          send_catalogCode := cat |} st)) = [plus_digits p].
Proof.
  rewrite post_send_otp_valid by assumption.
  unfold trace_of. cbn [fst snd].
  destruct (fst (Db.insert_lead _ _ _ _ _));
    destruct (verifications_create _ _ _); reflexivity.
Qed.

Lemma submit_inserted :
  inserted (trace_of (post_send_otp env
       {| send_name := name; send_phone := JStr p;
          send_catalogCode := cat |} st))
  = [(name, plus_digits p, or_else cat JNull)].
Proof.
  rewrite post_send_otp_valid by assumption.
  unfold trace_of. cbn [fst snd].
  destruct (fst (Db.insert_lead _ _ _ _ _));
    destruct (verifications_create _ _ _); reflexivity.
Qed.

Lemma submit_outcome :
  outcome_of (post_send_otp env
       {| send_name := name; send_phone := JStr p;
          send_catalogCode := cat |} st)
  = match verifications_create env (plus_digits p) "sms" with
    | Sent _ => json 200 true None
    | SendFails _ => json 500 false (Some "Failed to send OTP")
    end.
Proof. rewrite post_send_otp_valid by assumption. reflexivity. Qed.

End ValidSubmission.

(** ** Submission *)

(** C3: for a non-empty phone string, both handlers compute the key
    [+] followed by exactly the digit characters of the input, in order:
    it is the number [submitLead] hands to the provider and stores the
    session under, two inputs with the same digits give the same number,
    and [verifyLead] hands the provider the same number for the same
    input. *)
Theorem normalization_plus_digits
    (env env' : Env) (st st' : State) (name cat otp : JsValue)
    (p q : string) :
  truthy name = true ->
  truthy otp = true ->
  p <> EmptyString ->
  q <> EmptyString ->
  digit_chars p = digit_chars q ->
  let submit x :=
    post_send_otp env
      {| send_name := name; send_phone := JStr x; send_catalogCode := cat |}
      st in
  let verify x :=
    post_verify_otp env' {| verify_phone := JStr x; verify_otp := otp |} st' in
  sent_to (trace_of (submit p)) = [plus_digits p]
  /\ leads (state_of (submit p)) !! plus_digits p
     = Some (pending name (plus_digits p))
  /\ sent_to (trace_of (submit q)) = sent_to (trace_of (submit p))
  /\ checked_to (trace_of (verify p)) = sent_to (trace_of (submit p)).
Proof.
  intros Hname Hotp Hp Hq Hpq submit verify. subst submit verify.
  cbv beta.
  assert (Hkey : plus_digits q = plus_digits p)
    by (unfold plus_digits; rewrite Hpq; reflexivity).
  rewrite !submit_sent_to, submit_leads by assumption.
  rewrite post_verify_otp_valid by assumption.
  rewrite Hkey.
  repeat split.
  - apply lookup_insert_eq.
  - destruct (verificationChecks_create env' (plus_digits p) otp) as [s | m];
      [destruct (String.eqb s "approved") |]; reflexivity.
Qed.

Lemma normalization_plus_digits_witness :
  sent_to (trace_of (post_send_otp sample_env
     {| send_name := JStr "Bob"; send_phone := JStr "(555) 123-4567";
        send_catalogCode := JNull |} initial))
  = ["+5551234567"]
  /\ sent_to (trace_of (post_send_otp sample_env
     {| send_name := JStr "Bob"; send_phone := JStr "555-123-4567";
        send_catalogCode := JNull |} initial))
  = ["+5551234567"].
Proof.
  destruct (normalization_plus_digits sample_env sample_env initial initial
              (JStr "Bob") JNull (JStr "123456")
              "(555) 123-4567" "555-123-4567")
    as (H1 & _ & H3 & _);
    [reflexivity | reflexivity | discriminate | discriminate | reflexivity |].
  split; [exact H1 | rewrite H3; exact H1].
Defined.

(** C5: when [name] or [phone] is missing or empty, [submitLead] answers
    400 "Name and phone are required"; no INSERT is issued, the provider
    is not called, and the session map and the table are unchanged. *)
Theorem submit_missing_field_rejected (env : Env) (st : State)
    (req : SendBody) :
  missing_or_empty (send_name req) \/ missing_or_empty (send_phone req) ->
  let r := post_send_otp env req st in
  outcome_of r = json 400 false (Some "Name and phone are required")
  /\ inserted (trace_of r) = []
  /\ sent_to (trace_of r) = []
  /\ leads (state_of r) = leads st
  /\ db (state_of r) = db st.
Proof.
  intros H r. subst r.
  rewrite post_send_otp_invalid.
  - repeat split.
  - destruct H as [H | H]; [left | right];
      apply missing_or_empty_falsy; exact H.
Qed.

Lemma submit_missing_field_rejected_witness :
  outcome_of (post_send_otp sample_env
     {| send_name := JStr "Alice"; send_phone := JStr EmptyString;
        send_catalogCode := JUndefined |} initial)
  = json 400 false (Some "Name and phone are required").
Proof.
  apply (submit_missing_field_rejected sample_env initial
           {| send_name := JStr "Alice"; send_phone := JStr EmptyString;
              send_catalogCode := JUndefined |}).
  right. right. right. reflexivity.
Defined.

(** C10: a non-empty phone string without any digit passes the presence
    check and is normalized to the bare [+]: the session is stored under
    [+] with phone [+], the INSERT is issued with phone [+] (and the row
    it adds has phone [+]), and [+] is the number given to the provider. *)
Theorem digitless_phone_normalizes_to_plus (env : Env) (st : State)
    (name cat : JsValue) (p : string) :
  truthy name = true ->
  p <> EmptyString ->
  digit_chars p = [] ->
  let r :=
    post_send_otp env
      {| send_name := name; send_phone := JStr p; send_catalogCode := cat |}
      st in
  leads (state_of r) !! "+" = Some (pending name "+")
  /\ inserted (trace_of r) = [(name, "+", or_else cat JNull)]
  /\ sent_to (trace_of r) = ["+"]
  /\ (forall now, db_io env = Db.IoOk now ->
        Db.rows (db (state_of r))
        = Db.rows (db st) ++
            [ {| Db.row_id := Db.seq (db st) + 1; Db.row_name := name;
                 Db.row_phone := "+";
                 Db.row_catalog_code := or_else cat JNull;
                 Db.row_created_at := now |} ])
  /\ (outcome_of r = json 200 true None
      \/ outcome_of r = json 500 false (Some "Failed to send OTP")).
Proof.
  intros Hname Hp Hnone r. subst r.
  assert (Hkey : plus_digits p = "+")
    by (unfold plus_digits; rewrite Hnone; reflexivity).
  rewrite submit_leads, submit_inserted, submit_sent_to, submit_db,
    submit_outcome by assumption.
  rewrite Hkey.
  repeat split.
  - apply lookup_insert_eq.
  - intros now Hio. rewrite Hio, insert_lead_ok by assumption. reflexivity.
  - destruct (verifications_create env "+" "sms"); [left | right]; reflexivity.
Qed.

Lemma digitless_phone_normalizes_to_plus_witness :
  leads (state_of (post_send_otp sample_env
     {| send_name := JStr "Carol"; send_phone := JStr "n/a";
        send_catalogCode := JStr "QR-7" |} initial)) !! "+"
  = Some (pending (JStr "Carol") "+").
Proof.
  apply (digitless_phone_normalizes_to_plus sample_env initial
           (JStr "Carol") (JStr "QR-7") "n/a");
    [reflexivity | discriminate | reflexivity].
Defined.

(** C6: a failing INSERT does not stop a valid submission: whatever the
    database answers, the provider is asked to send a code to the
    normalized number, the response is the success response whenever the
    provider sends, and the response does not depend on the database's
    answer at all. *)
Theorem insert_failure_not_fatal (env : Env) (st : State)
    (name cat : JsValue) (p : string) (io io' : Db.Io) :
  truthy name = true ->
  p <> EmptyString ->
  let req :=
    {| send_name := name; send_phone := JStr p; send_catalogCode := cat |} in
  let r := post_send_otp (with_db_io io env) req st in
  sent_to (trace_of r) = [plus_digits p]
  /\ (forall sid,
        verifications_create env (plus_digits p) "sms" = Sent sid ->
        outcome_of r = json 200 true None)
  /\ outcome_of r = outcome_of (post_send_otp (with_db_io io' env) req st).
Proof.
  intros Hname Hp req r. subst r req.
  rewrite submit_sent_to, !submit_outcome by assumption.
  cbn [verifications_create with_db_io].
  repeat split.
  intros sid Hsent. rewrite Hsent. reflexivity.
Qed.

Lemma insert_failure_not_fatal_witness :
  outcome_of (post_send_otp (with_db_io (Db.IoErr "SQLITE_IOERR") sample_env)
                alice initial)
  = json 200 true None.
Proof.
  destruct (insert_failure_not_fatal sample_env initial (JStr "Alice")
              JUndefined "+1 555 111 2222" (Db.IoErr "SQLITE_IOERR")
              (Db.IoOk "2024-05-01 10:00:00"))
    as (_ & H & _); [reflexivity | discriminate |].
  apply (H "VE01"). reflexivity.
Defined.

(** C7: when the provider fails to send, a valid submission is answered
    500 "Failed to send OTP", and the session written earlier in the call
    stays in the map as it was written: the state of the phone is
    PENDING. *)
Theorem send_failure_keeps_pending (env : Env) (st : State)
    (name cat : JsValue) (p message : string) :
  truthy name = true ->
  p <> EmptyString ->
  verifications_create env (plus_digits p) "sms" = SendFails message ->
  let r :=
    post_send_otp env
      {| send_name := name; send_phone := JStr p; send_catalogCode := cat |}
      st in
  outcome_of r = json 500 false (Some "Failed to send OTP")
  /\ leads (state_of r) !! plus_digits p
     = Some (pending name (plus_digits p))
  /\ session_state (state_of r) (plus_digits p) = PENDING.
Proof.
  intros Hname Hp Hfail r. subst r.
  unfold session_state.
  rewrite submit_outcome, submit_leads by assumption.
  rewrite Hfail, lookup_insert_eq. repeat split.
Qed.

Lemma send_failure_keeps_pending_witness :
  session_state
    (state_of (post_send_otp
       {| db_io := Db.IoOk "2024-05-01 10:00:00";
          verifications_create := fun _ _ => SendFails "Too many requests";
          verificationChecks_create := verificationChecks_create sample_env;
          now_iso := now_iso sample_env;
          xlsx_write := xlsx_write sample_env |}
       alice initial))
    "+15551112222"
  = PENDING.
Proof.
  apply (send_failure_keeps_pending
           {| db_io := Db.IoOk "2024-05-01 10:00:00";
              verifications_create := fun _ _ => SendFails "Too many requests";
              verificationChecks_create :=
                verificationChecks_create sample_env;
              now_iso := now_iso sample_env;
              xlsx_write := xlsx_write sample_env |}
           initial (JStr "Alice") JUndefined "+1 555 111 2222"
           "Too many requests");
    [reflexivity | discriminate | reflexivity].
Defined.

(** ** Verification *)

(** C1: for a phone whose session is PENDING, a code for which the
    provider answers [approved] sets the session's [verified] flag (the
    state becomes VERIFIED) and the response is the success response; a
    code for which the provider answers any other status is answered 400
    "Invalid OTP" and the state, hence the flag, is left as it was. *)
Theorem verify_pending_session (env : Env) (st : State) (p : string)
    (otp : JsValue) (lead : Session) (answer : string) :
  p <> EmptyString ->
  truthy otp = true ->
  leads st !! plus_digits p = Some lead ->
  Lead.verified lead = false ->
  verificationChecks_create env (plus_digits p) otp = Checked answer ->
  let r :=
    post_verify_otp env {| verify_phone := JStr p; verify_otp := otp |} st in
  (answer = "approved" ->
     outcome_of r = json 200 true None
     /\ leads (state_of r) !! plus_digits p = Some (mark_verified lead)
     /\ session_state (state_of r) (plus_digits p) = VERIFIED)
  /\ (answer <> "approved" ->
        outcome_of r = json 400 false (Some "Invalid OTP")
        /\ state_of r = st
        /\ session_state (state_of r) (plus_digits p) = PENDING).
Proof.
  intros Hp Hotp Hlead Hpending Hanswer r. subst r.
  rewrite post_verify_otp_valid by assumption.
  rewrite Hanswer, Hlead. unfold session_state.
  split.
  - intros ->. cbn [String.eqb Ascii.eqb Bool.eqb].
    unfold outcome_of, state_of. cbn [fst snd leads].
    rewrite lookup_insert_eq. repeat split.
  - intros Hne. apply String.eqb_neq in Hne. rewrite Hne.
    unfold outcome_of, state_of. cbn [fst snd].
    rewrite Hlead, Hpending. repeat split.
Qed.

Lemma verify_pending_session_witness :
  let st := state_of (post_send_otp sample_env alice initial) in
  session_state
    (state_of (post_verify_otp sample_env (alice_code "123456") st))
    "+15551112222" = VERIFIED
  /\ session_state
       (state_of (post_verify_otp sample_env (alice_code "000000") st))
       "+15551112222" = PENDING.
Proof.
  intros st. split.
  - apply (verify_pending_session sample_env st "+1 555 111 2222"
             (JStr "123456") (pending (JStr "Alice") "+15551112222")
             "approved");
      reflexivity || discriminate.
  - apply (verify_pending_session sample_env st "+1 555 111 2222"
             (JStr "000000") (pending (JStr "Alice") "+15551112222")
             "pending");
      reflexivity || discriminate.
Defined.

(** C9: verifying a phone that has no session is allowed: the provider
    is asked to check the code for the normalized number, and whatever it
    answers the session map is left as it was, so no session is created
    and no state changes; on [approved] the response is still the success
    response. *)
Theorem verify_without_session (env : Env) (st : State) (p : string)
    (otp : JsValue) :
  p <> EmptyString ->
  truthy otp = true ->
  leads st !! plus_digits p = None ->
  let r :=
    post_verify_otp env {| verify_phone := JStr p; verify_otp := otp |} st in
  checked_to (trace_of r) = [plus_digits p]
  /\ leads (state_of r) = leads st
  /\ (forall key, session_state (state_of r) key = session_state st key)
  /\ (verificationChecks_create env (plus_digits p) otp = Checked "approved" ->
        outcome_of r = json 200 true None).
Proof.
  intros Hp Hotp Hnone r. subst r.
  rewrite post_verify_otp_valid by assumption.
  rewrite Hnone. unfold session_state.
  destruct (verificationChecks_create env (plus_digits p) otp) as [s | m].
  - destruct (String.eqb_spec s "approved") as [-> | Hne];
      repeat split; try reflexivity.
    intros [= ->]. contradiction.
  - repeat split. discriminate.
Qed.

Lemma verify_without_session_witness :
  leads (state_of (post_verify_otp sample_env (alice_code "123456") initial))
  = leads initial.
Proof.
  apply (verify_without_session sample_env initial "+1 555 111 2222"
           (JStr "123456"));
    [discriminate | reflexivity | reflexivity].
Defined.

(** ** What one request can do to the state *)

Section Steps.

Variable env : Env.
Variable st : State.

(** [submitLead] either leaves the state alone (presence check failed
    or [phone] is not a string) or stores a fresh PENDING session and
    issues one INSERT. *)
Lemma post_send_otp_cases (req : SendBody) :
  (state_of (post_send_otp env req st) = st
   /\ (truthy (send_name req) = false
       \/ forall p, send_phone req = JStr p -> p = EmptyString))
  \/ (exists p,
        send_phone req = JStr p /\ p <> EmptyString
        /\ truthy (send_name req) = true
        /\ leads (state_of (post_send_otp env req st))
           = <[plus_digits p := pending (send_name req) (plus_digits p)]>
               (leads st)
        /\ db (state_of (post_send_otp env req st))
           = snd (Db.insert_lead (db_io env) (send_name req)
                    (plus_digits p)
                    (or_else (send_catalogCode req) JNull) (db st))).
Proof.
  destruct req as [name phone cat]. cbn [send_name send_phone send_catalogCode].
  destruct (truthy name) eqn:Hname.
  2:{ left. split; [| left; reflexivity].
      rewrite post_send_otp_invalid; [reflexivity | left; exact Hname]. }
  destruct (truthy phone) eqn:Hphone.
  2:{ left. split.
      - rewrite post_send_otp_invalid; [reflexivity | right; exact Hphone].
      - right. intros p ->.
        destruct (String.eqb_spec p EmptyString) as [-> | Hne];
          [reflexivity |].
        apply truthy_string in Hne. congruence. }
  destruct phone as [| | b | n | p |];
    try (left; split;
         [rewrite post_send_otp_not_a_string;
            [reflexivity | assumption | assumption | discriminate]
         | right; discriminate]).
  right. exists p. apply truthy_string in Hphone.
  repeat split; try assumption.
  - apply submit_leads; assumption.
  - apply submit_db; assumption.
Qed.

(** [verifyLead] never touches the table, and either leaves the session
    map alone or sets the flag of a session that exists. *)
Lemma post_verify_otp_cases (req : VerifyBody) :
  db (state_of (post_verify_otp env req st)) = db st
  /\ (leads (state_of (post_verify_otp env req st)) = leads st
      \/ exists key lead,
           leads st !! key = Some lead
           /\ leads (state_of (post_verify_otp env req st))
              = <[key := mark_verified lead]> (leads st)).
Proof.
  unfold post_verify_otp.
  destruct (negb (truthy (verify_phone req)) || negb (truthy (verify_otp req)));
    [split; [reflexivity | left; reflexivity] |].
  destruct (verify_phone req) as [| | b | n | p |];
    try (split; [reflexivity | left; reflexivity]).
  destruct (verificationChecks_create env _ _) as [s | m];
    [| split; [reflexivity | left; reflexivity]].
  destruct (String.eqb s "approved");
    [| split; [reflexivity | left; reflexivity]].
  split; [reflexivity |].
  unfold state_of. cbn [fst leads].
  destruct (leads st !! ("+" +:+ replace_D_g p)) as [lead |] eqn:Hlead;
    [right | left; reflexivity].
  exists ("+" +:+ replace_D_g p), lead. split; [exact Hlead | reflexivity].
Qed.

(** The export only reads. *)
Lemma get_export_leads_state : state_of (get_export_leads env st) = st.
Proof.
  unfold get_export_leads.
  destruct (Db.select_leads (db_io env) (db st)) as [[m |] [[| r rs] |]];
    try reflexivity.
  destruct (xlsx_write env _); reflexivity.
Qed.

End Steps.

(** ** Session life cycle *)

Lemma handle_keeps_sessions (r : Request) (st : State) (key : string) :
  session_state st key <> NONE ->
  session_state (state_of (handle r st)) key <> NONE.
Proof.
  unfold session_state. intros Hsome.
  destruct (leads st !! key) as [lead |] eqn:Hlead; [clear Hsome | congruence].
  destruct r as [env req | env req | env]; cbn [handle].
  - destruct (post_send_otp_cases env st req) as [[-> _] | (p & _ & _ & _ & -> & _)].
    + rewrite Hlead. destruct (Lead.verified lead); discriminate.
    + destruct (decide (plus_digits p = key)) as [-> | Hne].
      * rewrite lookup_insert_eq. discriminate.
      * rewrite lookup_insert_ne, Hlead by assumption.
        destruct (Lead.verified lead); discriminate.
  - destruct (post_verify_otp_cases env st req) as [_ [-> | (k & l & _ & ->)]].
    + rewrite Hlead. destruct (Lead.verified lead); discriminate.
    + destruct (decide (k = key)) as [-> | Hne].
      * rewrite lookup_insert_eq. discriminate.
      * rewrite lookup_insert_ne, Hlead by assumption.
        destruct (Lead.verified lead); discriminate.
  - rewrite get_export_leads_state, Hlead.
    destruct (Lead.verified lead); discriminate.
Qed.

Lemma handle_keeps_verified (r : Request) (st : State) (key : string) :
  resubmits key r = false ->
  session_state st key = VERIFIED ->
  session_state (state_of (handle r st)) key = VERIFIED.
Proof.
  unfold session_state. intros Hr Hver.
  destruct (leads st !! key) as [lead |] eqn:Hlead; [| discriminate].
  destruct (Lead.verified lead) eqn:Hflag; [clear Hver | discriminate].
  destruct r as [env req | env req | env]; cbn [handle].
  - destruct (post_send_otp_cases env st req)
      as [[-> _] | (p & Hphone & Hp & Hname & -> & _)].
    + rewrite Hlead, Hflag. reflexivity.
    + cbn [resubmits] in Hr. rewrite Hname, Hphone in Hr. cbn [andb] in Hr.
      apply String.eqb_neq in Hp. rewrite Hp in Hr. cbn [negb andb] in Hr.
      apply String.eqb_neq in Hr.
      rewrite lookup_insert_ne, Hlead, Hflag by assumption. reflexivity.
  - destruct (post_verify_otp_cases env st req)
      as [_ [-> | (k & l & Hl & ->)]].
    + rewrite Hlead, Hflag. reflexivity.
    + destruct (decide (k = key)) as [-> | Hne].
      * rewrite lookup_insert_eq. reflexivity.
      * rewrite lookup_insert_ne, Hlead, Hflag by assumption. reflexivity.
  - rewrite get_export_leads_state, Hlead, Hflag. reflexivity.
Qed.

Lemma run_app (rs rs' : list Request) (st : State) :
  run (rs ++ rs') st = run rs' (run rs st).
Proof.
  revert st. induction rs as [| r rs IH]; intros st; simpl; [reflexivity |].
  apply IH.
Qed.

Lemma run_keeps_sessions (rs : list Request) (st : State) (key : string) :
  session_state st key <> NONE ->
  session_state (run rs st) key <> NONE.
Proof.
  revert st. induction rs as [| r rs IH]; intros st Hsome; simpl;
    [exact Hsome |].
  apply IH, handle_keeps_sessions, Hsome.
Qed.

Lemma resubmit_resets (env : Env) (req : SendBody) (st : State)
    (key : string) :
  resubmits key (SendOtp env req) = true ->
  session_state (state_of (post_send_otp env req st)) key = PENDING.
Proof.
  cbn [resubmits]. intros Hr.
  apply andb_prop in Hr as [Hname Hphone].
  destruct req as [name phone cat]. cbn [send_name send_phone] in *.
  destruct phone as [| | b | n | p |]; try discriminate.
  apply andb_prop in Hphone as [Hp Hkey].
  apply String.eqb_eq in Hkey. subst key.
  apply negb_true_iff, String.eqb_neq in Hp.
  unfold session_state. rewrite submit_leads by assumption.
  rewrite lookup_insert_eq. reflexivity.
Qed.

(** C2 as stated fails: after a submission and an approved verification
    the phone is VERIFIED, and the same submission once more brings it
    back to PENDING. *)
Lemma resubmission_returns_verified_to_pending :
  session_state
    (run [SendOtp sample_env alice;
          VerifyOtp sample_env (alice_code "123456")] initial)
    "+15551112222" = VERIFIED
  /\ session_state
       (run [SendOtp sample_env alice] 
          (run [SendOtp sample_env alice;
                VerifyOtp sample_env (alice_code "123456")] initial))
       "+15551112222" = PENDING.
Proof. split; vm_compute; reflexivity. Qed.

(** C2, amended: a session that has reached VERIFIED stays VERIFIED
    under every sequence of requests that has no valid submission for the
    same normalized phone (no [verifyLead] and no submission for another
    phone resets it, and no request removes it); a valid submission for
    that phone stores a new PENDING session in its place. *)
Theorem verified_until_resubmission (rs : list Request) (st : State)
    (key : string) :
  session_state st key = VERIFIED ->
  existsb (resubmits key) rs = false ->
  session_state (run rs st) key = VERIFIED
  /\ (forall env req,
        resubmits key (SendOtp env req) = true ->
        session_state (run (rs ++ [SendOtp env req]) st) key = PENDING).
Proof.
  intros Hver Hrs. split.
  - revert st Hver.
    induction rs as [| r rs IH]; intros st Hver; simpl; [exact Hver |].
    simpl in Hrs. apply orb_false_elim in Hrs as [Hr Hrest].
    apply IH; [exact Hrest |].
    apply handle_keeps_verified; assumption.
  - intros env req Hreq. rewrite run_app. simpl.
    apply resubmit_resets, Hreq.
Qed.

Lemma verified_until_resubmission_witness :
  session_state
    (run [VerifyOtp sample_env (alice_code "000000");
          SendOtp sample_env
            {| send_name := JStr "Bob"; send_phone := JStr "555-123-4567";
               send_catalogCode := JNull |};
          ExportLeads sample_env]
       (run [SendOtp sample_env alice;
             VerifyOtp sample_env (alice_code "123456")] initial))
    "+15551112222" = VERIFIED.
Proof.
  apply (verified_until_resubmission
           [VerifyOtp sample_env (alice_code "000000");
            SendOtp sample_env
              {| send_name := JStr "Bob"; send_phone := JStr "555-123-4567";
                 send_catalogCode := JNull |};
            ExportLeads sample_env]
           (run [SendOtp sample_env alice;
                 VerifyOtp sample_env (alice_code "123456")] initial)
           "+15551112222");
    vm_compute; reflexivity.
Defined.

(** ** The lead store *)

Lemma handle_rows (r : Request) (st : State) :
  exists added,
    Db.rows (db (state_of (handle r st))) = Db.rows (db st) ++ added
    /\ Forall row_ok added
    /\ length added = if stores r then 1%nat else 0%nat.
Proof.
  destruct r as [env req | env req | env]; cbn [handle stores].
  - destruct (post_send_otp_cases env st req)
      as [[-> Hinvalid] | (p & Hphone & Hp & Hname & _ & ->)].
    + exists []. rewrite app_nil_r. repeat split; [constructor |].
      destruct Hinvalid as [-> | Hempty]; [reflexivity |].
      destruct (send_phone req) as [| | b | n | p |];
        rewrite ?andb_false_r; try reflexivity.
      rewrite (Hempty p eq_refl). rewrite andb_false_r. reflexivity.
    + rewrite Hname, Hphone. apply String.eqb_neq in Hp. rewrite Hp.
      cbn [negb andb].
      destruct (db_io env) as [now | message].
      * rewrite insert_lead_ok by assumption. cbn [snd Db.rows].
        eexists. repeat split. repeat constructor; cbn.
        -- apply truthy_present, Hname.
        -- apply plus_digits_normalized.
      * exists []. cbn. rewrite app_nil_r. repeat split. constructor.
  - destruct (post_verify_otp_cases env st req) as [-> _].
    exists []. rewrite app_nil_r. repeat split. constructor.
  - rewrite get_export_leads_state.
    exists []. rewrite app_nil_r. repeat split. constructor.
Qed.

(** C8: under every sequence of requests the table only grows at its
    end: the rows there before are all kept, unchanged and in place; every
    added row has a name that is present and non-empty and a phone in
    canonical form; and each valid submission served while the database
    works adds exactly one row, whether or not its phone is already in the
    table. *)
Theorem lead_rows_append_only (rs : list Request) (st : State) :
  exists added,
    Db.rows (db (run rs st)) = Db.rows (db st) ++ added
    /\ Forall row_ok added
    /\ length added = length (List.filter stores rs).
Proof.
  revert st. induction rs as [| r rs IH]; intros st; simpl.
  - exists []. rewrite app_nil_r. repeat split. constructor.
  - destruct (handle_rows r st) as (one & Hone & Hok1 & Hlen1).
    destruct (IH (state_of (handle r st))) as (more & Hmore & Hok2 & Hlen2).
    exists (one ++ more). rewrite Hmore, Hone, <- app_assoc.
    repeat split.
    + apply Forall_app; split; assumption.
    + rewrite length_app, Hlen1, Hlen2.
      destruct (stores r); reflexivity.
Qed.

(** ** Export *)

Lemma add_keys_row_object (r : Db.Row) :
  XLSX.add_keys lead_columns (row_object r) = lead_columns.
Proof. reflexivity. Qed.

Lemma fold_add_keys_rows (rs : list Db.Row) :
  fold_left XLSX.add_keys (map row_object rs) lead_columns = lead_columns.
Proof.
  induction rs as [| r rs IH]; [reflexivity |].
  cbn [map fold_left]. rewrite add_keys_row_object. exact IH.
Qed.

Lemma all_keys_rows (r : Db.Row) (rs : list Db.Row) :
  XLSX.all_keys (map row_object (r :: rs)) = lead_columns.
Proof.
  unfold XLSX.all_keys. cbn [map fold_left].
  change (XLSX.add_keys [] (row_object r)) with lead_columns.
  apply fold_add_keys_rows.
Qed.

Lemma json_to_sheet_rows (r : Db.Row) (rs : list Db.Row) :
  XLSX.json_to_sheet (map row_object (r :: rs))
  = {| XLSX.header := lead_columns;
       XLSX.data := map row_cells (r :: rs);
       XLSX.cols := [] |}.
Proof.
  unfold XLSX.json_to_sheet. rewrite all_keys_rows. f_equal.
  rewrite map_map. apply map_ext. intros row. reflexivity.
Qed.

(** C4: with a database that answers the query, the export of an empty
    table is answered 400 "No leads to export" (a JSON body, no
    document); the export of a non-empty table, when the encoder does not
    fail, is answered with a workbook of the single sheet "Leads" whose
    columns are id, name, phone, catalog_code, created_at and which has
    exactly one line per row of the table, in the order of the table. *)
Theorem export_one_row_per_lead (env : Env) (st : State) (now : string) :
  db_io env = Db.IoOk now ->
  let r := get_export_leads env st in
  (Db.rows (db st) = [] ->
     outcome_of r = json 400 false (Some "No leads to export"))
  /\ (Db.rows (db st) <> [] ->
      (forall wb, xlsx_write env wb = None) ->
      exists hdrs sheet,
        outcome_of r
        = Replied {| status := 200; headers := hdrs;
                     body := Buffer [("Leads", sheet)] |}
        /\ XLSX.header sheet = lead_columns
        /\ XLSX.data sheet = map row_cells (Db.rows (db st))
        /\ length (XLSX.data sheet) = length (Db.rows (db st))).
Proof.
  intros Hio r. subst r. unfold get_export_leads, Db.select_leads.
  rewrite Hio. split.
  - intros ->. reflexivity.
  - intros Hrows Hwrite.
    destruct (Db.rows (db st)) as [| row rest]; [congruence |].
    rewrite Hwrite. unfold outcome_of. cbn [snd].
    rewrite json_to_sheet_rows.
    eexists. eexists. split; [reflexivity |].
    cbn [XLSX.set_cols XLSX.header XLSX.data].
    repeat split. apply length_map.
Qed.

Lemma export_one_row_per_lead_witness :
  outcome_of (get_export_leads sample_env initial)
  = json 400 false (Some "No leads to export")
  /\ exists hdrs sheet,
       outcome_of (get_export_leads sample_env
                     (run [SendOtp sample_env alice] initial))
       = Replied {| status := 200; headers := hdrs;
                    body := Buffer [("Leads", sheet)] |}
       /\ XLSX.header sheet = lead_columns
       /\ XLSX.data sheet
          = [[JNum 1; JStr "Alice"; JStr "+15551112222"; JNull;
              JStr "2024-05-01 10:00:00"]]
       /\ length (XLSX.data sheet) = 1%nat.
Proof.
  split.
  - apply (export_one_row_per_lead sample_env initial "2024-05-01 10:00:00");
      reflexivity.
  - apply (export_one_row_per_lead sample_env
             (run [SendOtp sample_env alice] initial)
             "2024-05-01 10:00:00");
      [reflexivity | discriminate | reflexivity].
Defined.

(** ** The state after one request, in closed form *)

Lemma post_send_otp_state (env : Env) (req : SendBody) (st : State) :
  state_of (post_send_otp env req st)
  = match send_phone req with
    | JStr p =>
        if truthy (send_name req) && negb (String.eqb p EmptyString) then
          {| leads :=
               <[plus_digits p := pending (send_name req) (plus_digits p)]>
                 (leads st);
             db := snd (Db.insert_lead (db_io env) (send_name req)
                          (plus_digits p)
                          (or_else (send_catalogCode req) JNull) (db st)) |}
        else st
    | _ => st
    end.
Proof.
  destruct req as [name phone cat]. cbn [send_name send_phone send_catalogCode].
  destruct (truthy name) eqn:Hname.
  - destruct phone as [| | b | n | p |];
      try (rewrite post_send_otp_invalid by (right; reflexivity); reflexivity);
      try (rewrite post_send_otp_not_a_string
             by (assumption || reflexivity || discriminate); reflexivity).
    + destruct b.
      * rewrite post_send_otp_not_a_string
          by (assumption || reflexivity || discriminate). reflexivity.
      * rewrite post_send_otp_invalid by (right; reflexivity). reflexivity.
    + destruct (Z.eqb_spec n 0) as [-> | Hn].
      * rewrite post_send_otp_invalid by (right; reflexivity). reflexivity.
      * rewrite post_send_otp_not_a_string; cbn; try reflexivity;
          try assumption; try discriminate.
        apply negb_true_iff, Z.eqb_neq, Hn.
    + cbn [andb]. destruct (String.eqb_spec p EmptyString) as [-> | Hp];
        cbn [negb].
      * rewrite post_send_otp_invalid by (right; reflexivity). reflexivity.
      * rewrite post_send_otp_valid by assumption. reflexivity.
  - rewrite post_send_otp_invalid by (left; assumption).
    destruct phone; reflexivity.
Qed.

Lemma post_verify_otp_state (env : Env) (req : VerifyBody) (st : State) :
  state_of (post_verify_otp env req st)
  = match verify_phone req with
    | JStr p =>
        if approves (plus_digits p) (VerifyOtp env req) then
          {| leads :=
               match leads st !! plus_digits p with
               | Some lead =>
                   <[plus_digits p := mark_verified lead]> (leads st)
               | None => leads st
               end;
             db := db st |}
        else st
    | _ => st
    end.
Proof.
  destruct req as [phone otp]. unfold post_verify_otp, approves.
  cbn [verify_phone verify_otp].
  destruct phone as [| | b | n | p |];
    try (destruct (negb _ || negb (truthy otp)); reflexivity).
  rewrite normalizedPhone_plus_digits, String.eqb_refl.
  cbn [truthy]. destruct (truthy otp); cbn [negb orb andb];
    [| rewrite orb_true_r; reflexivity].
  destruct (String.eqb p EmptyString); cbn [negb orb andb]; [reflexivity |].
  destruct (verificationChecks_create env (plus_digits p) otp) as [s | m];
    [| reflexivity].
  destruct (String.eqb s "approved"); reflexivity.
Qed.

(** ** Verification: the paths without a session change *)

(** X1: a verification request whose [phone] or [otp] is missing or empty
    is answered 400 "Phone and OTP are required" at once: the provider is
    not asked, nothing is logged and the state is the same. *)
Theorem verify_missing_field_rejected (env : Env) (st : State)
    (req : VerifyBody) :
  missing_or_empty (verify_phone req) \/ missing_or_empty (verify_otp req) ->
  post_verify_otp env req st
  = (st, [], json 400 false (Some "Phone and OTP are required")).
Proof.
  intros H. unfold post_verify_otp.
  destruct H as [H | H]; apply missing_or_empty_falsy in H; rewrite H.
  - reflexivity.
  - rewrite orb_true_r. reflexivity.
Qed.

Lemma verify_missing_field_rejected_witness :
  post_verify_otp sample_env
    {| verify_phone := JStr "+1 555 111 2222"; verify_otp := JUndefined |}
    initial
  = (initial, [], json 400 false (Some "Phone and OTP are required")).
Proof.
  apply (verify_missing_field_rejected sample_env initial
           {| verify_phone := JStr "+1 555 111 2222";
              verify_otp := JUndefined |}).
  right. left. reflexivity.
Defined.

(** X2: whatever the request, a verification that the provider does not
    approve (another status, a provider failure, or a request that never
    reaches the provider) leaves the whole state as it was; when the
    provider call itself fails the response is 500 "OTP verification
    failed" and the provider's message goes to the log only. *)
Theorem verify_unapproved_changes_nothing (env : Env) (st : State)
    (req : VerifyBody) :
  (forall key, approves key (VerifyOtp env req) = false) ->
  let r := post_verify_otp env req st in
  state_of r = st
  /\ (forall p message,
        verify_phone req = JStr p ->
        p <> EmptyString ->
        truthy (verify_otp req) = true ->
        verificationChecks_create env (plus_digits p) (verify_otp req)
        = CheckFails message ->
        outcome_of r = json 500 false (Some "OTP verification failed")
        /\ trace_of r
           = [ VerificationChecksCreate (plus_digits p) (verify_otp req);
               ConsoleError "Verify OTP error:" message ]).
Proof.
  intros Hno r. subst r. split.
  - rewrite post_verify_otp_state.
    destruct (verify_phone req); try reflexivity.
    rewrite Hno. reflexivity.
  - intros p message Hphone Hp Hotp Hfail.
    destruct req as [phone otp]. cbn [verify_phone verify_otp] in *.
    subst phone. rewrite post_verify_otp_valid by assumption.
    rewrite Hfail. split; reflexivity.
Qed.

Lemma verify_unapproved_changes_nothing_witness :
  state_of (post_verify_otp sample_env (alice_code "000000")
              (state_of (post_send_otp sample_env alice initial)))
  = state_of (post_send_otp sample_env alice initial).
Proof.
  apply (verify_unapproved_changes_nothing sample_env
           (state_of (post_send_otp sample_env alice initial))
           (alice_code "000000")).
  intros key. cbn. rewrite andb_false_r. reflexivity.
Defined.

(** X3: a [phone] that passes the presence check without being a string
    (a number, [true], an array or an object) has no [replace] method:
    both handlers stop with a TypeError before their [try] block, so no
    response is sent, no collaborator is called and the state is the
    same. *)
Theorem non_string_phone_throws (env : Env) (st : State)
    (phone other cat : JsValue) :
  truthy phone = true ->
  truthy other = true ->
  (forall p, phone <> JStr p) ->
  post_send_otp env
    {| send_name := other; send_phone := phone; send_catalogCode := cat |} st
  = (st, [], Rejected (TypeError "phone.replace is not a function"))
  /\ post_verify_otp env {| verify_phone := phone; verify_otp := other |} st
     = (st, [], Rejected (TypeError "phone.replace is not a function")).
Proof.
  intros Hphone Hother Hstr. split.
  - apply post_send_otp_not_a_string; assumption.
  - unfold post_verify_otp. cbn [verify_phone verify_otp].
    rewrite Hphone, Hother. cbn [negb orb].
    destruct phone; try reflexivity.
    exfalso. eapply Hstr. reflexivity.
Qed.

Lemma non_string_phone_throws_witness :
  post_send_otp sample_env
    {| send_name := JStr "Bob"; send_phone := JNum 5551234567;
       send_catalogCode := JNull |} initial
  = (initial, [], Rejected (TypeError "phone.replace is not a function")).
Proof.
  apply (non_string_phone_throws sample_env initial (JNum 5551234567)
           (JStr "Bob") JNull);
    [reflexivity | reflexivity | discriminate].
Defined.

(** ** Sessions: frame, provenance and shape *)

(** X4: a request only ever touches the session of its own normalized
    phone: the entry of every other key, present or absent, is the same
    after the request as before. *)
Theorem other_sessions_untouched (r : Request) (st : State) (key : string) :
  request_key r <> Some key ->
  leads (state_of (handle r st)) !! key = leads st !! key.
Proof.
  intros Hkey.
  destruct r as [env req | env req | env]; cbn [handle request_key] in *.
  - rewrite post_send_otp_state.
    destruct (send_phone req) as [| | b | n | p |]; try reflexivity.
    destruct (truthy (send_name req) && negb (String.eqb p EmptyString));
      [| reflexivity].
    cbn [leads]. apply lookup_insert_ne. congruence.
  - rewrite post_verify_otp_state.
    destruct (verify_phone req) as [| | b | n | p |]; try reflexivity.
    destruct (approves (plus_digits p) (VerifyOtp env req)); [| reflexivity].
    cbn [leads].
    destruct (leads st !! plus_digits p); [| reflexivity].
    apply lookup_insert_ne. congruence.
  - rewrite get_export_leads_state. reflexivity.
Qed.

Lemma other_sessions_untouched_witness :
  leads (state_of (handle
                     (SendOtp sample_env
                        {| send_name := JStr "Bob";
                           send_phone := JStr "555-123-4567";
                           send_catalogCode := JNull |})
                     (state_of (post_send_otp sample_env alice initial))))
    !! "+15551112222"
  = leads (state_of (post_send_otp sample_env alice initial))
      !! "+15551112222".
Proof.
  apply (other_sessions_untouched
           (SendOtp sample_env
              {| send_name := JStr "Bob"; send_phone := JStr "555-123-4567";
                 send_catalogCode := JNull |})
           (state_of (post_send_otp sample_env alice initial))
           "+15551112222").
  vm_compute. discriminate.
Defined.

(** X5: a phone becomes VERIFIED in one way only: by a verification
    request for that very normalized number which passes the presence
    check and which the provider approves, and only from PENDING.  No
    submission and no export marks anything verified, and an approval
    for a phone without a session creates none. *)
Theorem verified_only_by_approval (r : Request) (st : State) (key : string) :
  session_state st key <> VERIFIED ->
  session_state (state_of (handle r st)) key = VERIFIED ->
  approves key r = true /\ session_state st key = PENDING.
Proof.
  unfold session_state. intros Hbefore Hafter.
  destruct r as [env req | env req | env]; cbn [handle] in Hafter.
  - exfalso. rewrite post_send_otp_state in Hafter.
    destruct (send_phone req) as [| | b | n | p |]; try contradiction.
    destruct (truthy (send_name req) && negb (String.eqb p EmptyString));
      [| contradiction].
    cbn [leads] in Hafter.
    destruct (decide (plus_digits p = key)) as [<- | Hne].
    + rewrite lookup_insert_eq in Hafter. discriminate.
    + rewrite lookup_insert_ne in Hafter by assumption. contradiction.
  - rewrite post_verify_otp_state in Hafter.
    destruct (verify_phone req) as [| | b | n | p |] eqn:Hphone;
      try contradiction.
    destruct (approves (plus_digits p) (VerifyOtp env req)) eqn:Happ;
      [| contradiction].
    cbn [leads] in Hafter.
    destruct (decide (plus_digits p = key)) as [<- | Hne].
    + split; [exact Happ |].
      destruct (leads st !! plus_digits p) as [lead |] eqn:Hlead;
        [| cbv beta iota in Hafter; rewrite Hlead in Hafter;
           discriminate Hafter].
      destruct (Lead.verified lead); [exfalso; apply Hbefore |]; reflexivity.
    + exfalso.
      destruct (leads st !! plus_digits p);
        [rewrite lookup_insert_ne in Hafter by assumption |]; contradiction.
  - exfalso. rewrite get_export_leads_state in Hafter. contradiction.
Qed.

Lemma verified_only_by_approval_witness :
  approves "+15551112222" (VerifyOtp sample_env (alice_code "123456")) = true
  /\ session_state (state_of (post_send_otp sample_env alice initial))
       "+15551112222" = PENDING.
Proof.
  apply (verified_only_by_approval
           (VerifyOtp sample_env (alice_code "123456"))
           (state_of (post_send_otp sample_env alice initial))
           "+15551112222");
    vm_compute; [discriminate | reflexivity].
Defined.

Lemma handle_sessions_ok (r : Request) (st : State) :
  sessions_ok (leads st) -> sessions_ok (leads (state_of (handle r st))).
Proof.
  intros Hok.
  destruct r as [env req | env req | env]; cbn [handle].
  - rewrite post_send_otp_state.
    destruct (send_phone req) as [| | b | n | p |]; try exact Hok.
    destruct (truthy (send_name req)) eqn:Hname; [| exact Hok].
    destruct (negb (String.eqb p EmptyString)); [| exact Hok].
    cbn [andb leads]. intros key lead Hlookup.
    destruct (decide (plus_digits p = key)) as [<- | Hne].
    + rewrite lookup_insert_eq in Hlookup. injection Hlookup as <-.
      cbn. repeat split; [apply plus_digits_normalized | exact Hname].
    + rewrite lookup_insert_ne in Hlookup by assumption.
      apply Hok, Hlookup.
  - rewrite post_verify_otp_state.
    destruct (verify_phone req) as [| | b | n | p |]; try exact Hok.
    destruct (approves (plus_digits p) (VerifyOtp env req)); [| exact Hok].
    cbn [leads].
    destruct (leads st !! plus_digits p) as [old |] eqn:Hold; [| exact Hok].
    intros key lead Hlookup.
    destruct (decide (plus_digits p = key)) as [<- | Hne].
    + rewrite lookup_insert_eq in Hlookup. injection Hlookup as <-.
      apply (Hok _ _ Hold).
    + rewrite lookup_insert_ne in Hlookup by assumption.
      apply Hok, Hlookup.
  - rewrite get_export_leads_state. exact Hok.
Qed.

Lemma run_sessions_ok (rs : list Request) (st : State) :
  sessions_ok (leads st) -> sessions_ok (leads (run rs st)).
Proof.
  revert st. induction rs as [| r rs IH]; intros st Hok; simpl;
    [exact Hok |].
  apply IH, handle_sessions_ok, Hok.
Qed.

(** X6: in every state the server reaches from its start, each entry of
    [leads] is stored under its own [phone] field, that key is in
    canonical form ([+] and digits only), and its [name] is truthy. *)
Theorem sessions_keyed_by_normalized_phone (rs : list Request)
    (key : string) (lead : Session) :
  leads (run rs initial) !! key = Some lead ->
  Lead.phone lead = key
  /\ is_normalized key = true
  /\ truthy (Lead.name lead) = true.
Proof.
  apply (run_sessions_ok rs initial).
  intros k l Hl. unfold initial in Hl. cbn [leads] in Hl.
  rewrite lookup_empty in Hl. discriminate.
Qed.

Lemma sessions_keyed_by_normalized_phone_witness :
  Lead.phone (pending (JStr "Alice") "+15551112222") = "+15551112222"
  /\ is_normalized "+15551112222" = true
  /\ truthy (Lead.name (pending (JStr "Alice") "+15551112222")) = true.
Proof.
  apply (sessions_keyed_by_normalized_phone
           [SendOtp sample_env alice;
            VerifyOtp sample_env (alice_code "000000")]
           "+15551112222" (pending (JStr "Alice") "+15551112222")).
  vm_compute. reflexivity.
Defined.

(** X7: a session is never deleted: once a phone has one, it has one
    after every further sequence of requests. *)
Theorem sessions_never_removed (rs : list Request) (st : State)
    (key : string) :
  is_Some (leads st !! key) ->
  is_Some (leads (run rs st) !! key).
Proof.
  intros Hsome.
  assert (Hstate : session_state (run rs st) key <> NONE).
  { revert st Hsome. induction rs as [| r rs IH]; intros st Hsome; simpl.
    - unfold session_state. destruct Hsome as [lead ->].
      destruct (Lead.verified lead); discriminate.
    - apply IH.
      assert (H : session_state (state_of (handle r st)) key <> NONE).
      { apply handle_keeps_sessions. unfold session_state.
        destruct Hsome as [lead ->]. destruct (Lead.verified lead);
          discriminate. }
      unfold session_state in H.
      destruct (leads (state_of (handle r st)) !! key); [eauto | congruence]. }
  unfold session_state in Hstate.
  destruct (leads (run rs st) !! key); [eauto | congruence].
Qed.

Lemma sessions_never_removed_witness :
  is_Some (leads (run [VerifyOtp sample_env (alice_code "000000");
                       ExportLeads sample_env]
                    (state_of (post_send_otp sample_env alice initial)))
             !! "+15551112222").
Proof.
  apply (sessions_never_removed
           [VerifyOtp sample_env (alice_code "000000");
            ExportLeads sample_env]
           (state_of (post_send_otp sample_env alice initial))
           "+15551112222").
  vm_compute. eexists. reflexivity.
Defined.

(** ** The table: ids, constraints, stored values *)

(** The three shapes of a submission body. *)
Lemma send_body_cases (req : SendBody) :
  (truthy (send_name req) = false \/ truthy (send_phone req) = false)
  \/ (truthy (send_name req) = true /\ truthy (send_phone req) = true
      /\ forall p, send_phone req <> JStr p)
  \/ (exists p,
        send_phone req = JStr p /\ p <> EmptyString
        /\ truthy (send_name req) = true).
Proof.
  destruct (truthy (send_name req)) eqn:Hname; [| left; left; reflexivity].
  destruct (truthy (send_phone req)) eqn:Hphone; [| left; right; reflexivity].
  right.
  destruct (send_phone req) as [| | b | n | p |];
    try (left; repeat split; discriminate).
  right. exists p. apply truthy_string in Hphone. repeat split; assumption.
Qed.

Lemma sorted_snoc (l : list Z) (x : Z) :
  StronglySorted Z.lt l ->
  Forall (fun y => y < x) l ->
  StronglySorted Z.lt (l ++ [x]).
Proof.
  intros Hsorted Hbelow.
  induction Hsorted as [| y l Hl IH Hy]; cbn.
  - repeat constructor.
  - apply Forall_cons_iff in Hbelow as [Hyx Hrest].
    constructor; [apply IH, Hrest |].
    apply Forall_app. split; [exact Hy | repeat constructor; exact Hyx].
Qed.

Lemma sorted_NoDup (l : list Z) : StronglySorted Z.lt l -> List.NoDup l.
Proof.
  induction 1 as [| y l Hl IH Hy]; constructor; [| exact IH].
  intros Hin. rewrite List.Forall_forall in Hy.
  apply Hy in Hin. lia.
Qed.

Lemma insert_lead_ids_ok (io : Db.Io) (name : JsValue) (phone : string)
    (cat : JsValue) (t : Db.Table) :
  ids_ok t -> ids_ok (snd (Db.insert_lead io name phone cat t)).
Proof.
  intros [Hsorted Hbound]. unfold Db.insert_lead.
  destruct io as [now | message]; [| split; assumption].
  destruct (Db.sql_null name); [split; assumption |].
  cbn [snd]. split; cbn [Db.rows Db.seq].
  - rewrite map_app. cbn [map Db.row_id]. apply sorted_snoc; [exact Hsorted |].
    apply List.Forall_map. eapply List.Forall_impl; [| exact Hbound].
    cbn. intros r Hr. lia.
  - apply Forall_app. split.
    + eapply List.Forall_impl; [| exact Hbound]. cbn. intros r Hr. lia.
    + repeat constructor. cbn. lia.
Qed.

Lemma handle_ids_ok (r : Request) (st : State) :
  ids_ok (db st) -> ids_ok (db (state_of (handle r st))).
Proof.
  intros Hok. destruct r as [env req | env req | env]; cbn [handle].
  - rewrite post_send_otp_state.
    destruct (send_phone req); try exact Hok.
    destruct (_ && _); [| exact Hok].
    cbn [db]. apply insert_lead_ids_ok, Hok.
  - destruct (post_verify_otp_cases env st req) as [-> _]. exact Hok.
  - rewrite get_export_leads_state. exact Hok.
Qed.

(** X8: the ids of the table are strictly increasing in insertion order,
    hence pairwise distinct, and never beyond the AUTOINCREMENT sequence;
    every sequence of requests keeps it so. *)
Theorem lead_ids_strictly_increasing (rs : list Request) (st : State) :
  ids_ok (db st) ->
  ids_ok (db (run rs st))
  /\ List.NoDup (map Db.row_id (Db.rows (db (run rs st)))).
Proof.
  intros Hok.
  assert (Hrun : ids_ok (db (run rs st))).
  { revert st Hok. induction rs as [| r rs IH]; intros st Hok; simpl;
      [exact Hok |].
    apply IH, handle_ids_ok, Hok. }
  split; [exact Hrun |]. apply sorted_NoDup, Hrun.
Qed.

Lemma lead_ids_strictly_increasing_witness :
  List.NoDup (map Db.row_id
           (Db.rows (db (run [SendOtp sample_env alice;
                              SendOtp sample_env alice] initial)))).
Proof.
  apply (lead_ids_strictly_increasing
           [SendOtp sample_env alice; SendOtp sample_env alice] initial).
  split; constructor.
Defined.

(** X9: the handler never violates the NOT NULL constraints of the
    table: while the database works, no submission, whatever its body,
    logs an INSERT error. *)
Theorem insert_fails_only_on_io (env : Env) (st : State) (req : SendBody)
    (now : string) :
  db_io env = Db.IoOk now ->
  insert_errors (trace_of (post_send_otp env req st)) = [].
Proof.
  intros Hio.
  destruct (send_body_cases req)
    as [Hinvalid | [(Hname & Hphone & Hstr) | (p & Hphone & Hp & Hname)]].
  - rewrite post_send_otp_invalid by assumption. reflexivity.
  - rewrite post_send_otp_not_a_string by assumption. reflexivity.
  - destruct req as [name phone cat]. cbn [send_name send_phone] in *.
    subst phone. rewrite post_send_otp_valid by assumption.
    rewrite Hio, insert_lead_ok by assumption.
    unfold trace_of. cbn [fst snd].
    destruct (verifications_create env (plus_digits p) "sms"); reflexivity.
Qed.

Lemma insert_fails_only_on_io_witness :
  insert_errors (trace_of (post_send_otp sample_env alice initial)) = [].
Proof.
  apply (insert_fails_only_on_io sample_env initial alice
           "2024-05-01 10:00:00").
  reflexivity.
Defined.



(** X11: only a valid submission served while the database works writes
    the table: every other request, and a submission whose INSERT fails,
    leaves the rows and the AUTOINCREMENT sequence as they were (a failed
    INSERT uses up no id). *)
Theorem table_written_only_by_stored_submission (r : Request) (st : State) :
  stores r = false ->
  db (state_of (handle r st)) = db st.
Proof.
  intros Hr. destruct r as [env req | env req | env]; cbn [handle].
  - rewrite post_send_otp_state. cbn [stores] in Hr.
    destruct (send_phone req) as [| | b | n | p |]; try reflexivity.
    destruct (truthy (send_name req) && negb (String.eqb p EmptyString));
      [| reflexivity].
    cbn [andb] in Hr. cbn [db].
    destruct (db_io env); [discriminate | reflexivity].
  - destruct (post_verify_otp_cases env st req) as [-> _]. reflexivity.
  - rewrite get_export_leads_state. reflexivity.
Qed.

Lemma table_written_only_by_stored_submission_witness :
  db (state_of (handle (SendOtp (with_db_io (Db.IoErr "SQLITE_BUSY") sample_env)
                          alice) initial))
  = db initial.
Proof.
  apply (table_written_only_by_stored_submission
           (SendOtp (with_db_io (Db.IoErr "SQLITE_BUSY") sample_env) alice)
           initial).
  reflexivity.
Defined.

(** ** Export: failures, headers, composition with submission *)

(** X12: when the query fails the export is answered 500 "Error fetching
    leads", whatever the table holds (also when it is empty: the failure
    is not reported as "no leads"); the database's message is logged, not
    returned, and the state is the same. *)
Theorem export_query_failure (env : Env) (st : State) (message : string) :
  db_io env = Db.IoErr message ->
  get_export_leads env st
  = (st, [DbAllSelect; ConsoleError "DB query error:" message],
     json 500 false (Some "Error fetching leads")).
Proof.
  intros Hio. unfold get_export_leads, Db.select_leads. rewrite Hio.
  reflexivity.
Qed.

Lemma export_query_failure_witness :
  get_export_leads (with_db_io (Db.IoErr "SQLITE_CORRUPT") sample_env) initial
  = (initial, [DbAllSelect; ConsoleError "DB query error:" "SQLITE_CORRUPT"],
     json 500 false (Some "Error fetching leads")).
Proof.
  apply (export_query_failure
           (with_db_io (Db.IoErr "SQLITE_CORRUPT") sample_env) initial
           "SQLITE_CORRUPT").
  reflexivity.
Defined.

(** X13: when the table is not empty and the encoder throws, the export
    is answered 500 "Error exporting leads" with a JSON body and no
    document; the encoder's message is logged, not returned, and the state
    is the same. *)
Theorem export_encoder_failure (env : Env) (st : State)
    (now message : string) :
  db_io env = Db.IoOk now ->
  Db.rows (db st) <> [] ->
  (forall wb, xlsx_write env wb = Some message) ->
  let r := get_export_leads env st in
  state_of r = st
  /\ trace_of r = [DbAllSelect; ConsoleError "Export error:" message]
  /\ exists hdrs,
       outcome_of r
       = Replied {| status := 500; headers := hdrs;
                    body := Json false (Some "Error exporting leads") |}.
Proof.
  intros Hio Hrows Hwrite r. subst r.
  unfold get_export_leads, Db.select_leads. rewrite Hio.
  destruct (Db.rows (db st)) as [| row rest]; [congruence |].
  rewrite Hwrite. repeat split. eexists. reflexivity.
Qed.

Lemma export_encoder_failure_witness :
  trace_of (get_export_leads
              {| db_io := db_io sample_env;
                 verifications_create := verifications_create sample_env;
                 verificationChecks_create :=
                   verificationChecks_create sample_env;
                 now_iso := now_iso sample_env;
                 xlsx_write := fun _ => Some "out of memory" |}
              (state_of (post_send_otp sample_env alice initial)))
  = [DbAllSelect; ConsoleError "Export error:" "out of memory"].
Proof.
  apply (export_encoder_failure
           {| db_io := db_io sample_env;
              verifications_create := verifications_create sample_env;
              verificationChecks_create :=
                verificationChecks_create sample_env;
              now_iso := now_iso sample_env;
              xlsx_write := fun _ => Some "out of memory" |}
           (state_of (post_send_otp sample_env alice initial))
           "2024-05-01 10:00:00" "out of memory");
    [reflexivity | discriminate | reflexivity].
Defined.

Lemma split_first_T (date time : string) :
  no_T date = true ->
  split_first "T" (date +:+ String "T" time) = date.
Proof.
  unfold no_T. induction date as [| c date IH]; intros Hno; [reflexivity |].
  cbn [list_ascii_of_string forallb] in Hno.
  apply andb_prop in Hno as [Hc Hrest]. apply negb_true_iff in Hc.
  simpl. rewrite Hc, IH by exact Hrest. reflexivity.
Qed.

(** X14: a successful export is sent as an attachment of the spreadsheet
    media type whose file name is [leads_], the date part of the ISO time
    of the export (what precedes its T), and [.xlsx]; the sheet carries
    the five fixed column widths, one for each column of its header. *)
Theorem export_attachment_headers (env : Env) (st : State)
    (now date time : string) :
  db_io env = Db.IoOk now ->
  Db.rows (db st) <> [] ->
  (forall wb, xlsx_write env wb = None) ->
  now_iso env = date +:+ String "T" time ->
  no_T date = true ->
  exists sheet,
    outcome_of (get_export_leads env st)
    = Replied
        {| status := 200;
           headers :=
             [ ("Content-Type", xlsx_mime);
               ("Content-Disposition",
                "attachment; filename=" +:+ dquote +:+
                  ("leads_" +:+ date +:+ ".xlsx") +:+ dquote) ];
           body := Buffer [("Leads", sheet)] |}
    /\ XLSX.cols sheet = [5; 20; 15; 20; 20]
    /\ length (XLSX.cols sheet) = length (XLSX.header sheet).
Proof.
  intros Hio Hrows Hwrite Hnow Hdate.
  unfold get_export_leads, Db.select_leads. rewrite Hio.
  destruct (Db.rows (db st)) as [| row rest]; [congruence |].
  rewrite Hwrite, Hnow, split_first_T by exact Hdate.
  rewrite json_to_sheet_rows.
  eexists. split; [reflexivity |]. split; reflexivity.
Qed.

Lemma export_attachment_headers_witness :
  exists sheet,
    outcome_of (get_export_leads sample_env
                  (state_of (post_send_otp sample_env alice initial)))
    = Replied
        {| status := 200;
           headers :=
             [ ("Content-Type", xlsx_mime);
               ("Content-Disposition",
                "attachment; filename=" +:+ dquote +:+
                  ("leads_" +:+ "2024-05-01" +:+ ".xlsx") +:+ dquote) ];
           body := Buffer [("Leads", sheet)] |}
    /\ XLSX.cols sheet = [5; 20; 15; 20; 20]
    /\ length (XLSX.cols sheet) = length (XLSX.header sheet).
Proof.
  apply (export_attachment_headers sample_env
           (state_of (post_send_otp sample_env alice initial))
           "2024-05-01 10:00:00" "2024-05-01" "10:00:00.000Z");
    [reflexivity | discriminate | reflexivity | reflexivity | reflexivity].
Defined.



(** ** Responses *)

(** X16: every response of the three handlers keeps the contract
    [reply_ok]: [success: true] only with status 200, [success: false]
    only with status 400 or 500 and one of the eight fixed message texts.
    The messages of the database, the provider and the encoder are never
    part of a response. *)
Theorem replies_keep_contract (r : Request) (st : State) :
  reply_ok (outcome_of (handle r st)).
Proof.
  assert (Hmsg : forall code text,
             (code = 400 \/ code = 500) ->
             In text response_messages ->
             reply_ok (json code false (Some text))).
  { intros code text Hcode Htext. cbn. split; [exact Hcode | eauto]. }
  destruct r as [env req | env req | env]; cbn [handle].
  - unfold post_send_otp.
    destruct (negb _ || negb _);
      [apply Hmsg; [left; reflexivity | cbn; tauto] |].
    destruct (send_phone req); try exact I.
    destruct (Db.insert_lead _ _ _ _ _) as [err db'].
    destruct (verifications_create _ _ _);
      [cbn; split; reflexivity
      | apply Hmsg; [right; reflexivity | cbn; tauto]].
  - unfold post_verify_otp.
    destruct (negb _ || negb _);
      [apply Hmsg; [left; reflexivity | cbn; tauto] |].
    destruct (verify_phone req); try exact I.
    destruct (verificationChecks_create _ _ _) as [answer | message];
      [| apply Hmsg; [right; reflexivity | cbn; tauto]].
    destruct (String.eqb answer "approved");
      [cbn; split; reflexivity
      | apply Hmsg; [left; reflexivity | cbn; tauto]].
  - unfold get_export_leads.
    destruct (Db.select_leads _ _) as [[message |] [[| row rest] |]];
      try (apply Hmsg; [right; reflexivity | cbn; tauto]);
      try (apply Hmsg; [left; reflexivity | cbn; tauto]).
    destruct (xlsx_write env _); cbn; [| reflexivity].
    split; [right; reflexivity |].
    eexists. split; [reflexivity | cbn; tauto].
Qed.

(** ** Submission followed by verification *)

(** X17: the two handlers compose across punctuation: after a valid
    submission for a phone, an approved verification under any non-empty
    phone string with the same digits (the normalized number itself
    included) finds that session and marks it: the state of the phone is
    VERIFIED and the session keeps the name and phone of the submission. *)
Theorem verify_after_submission (env env' : Env) (st : State)
    (name cat otp : JsValue) (p q : string) :
  truthy name = true ->
  truthy otp = true ->
  p <> EmptyString ->
  q <> EmptyString ->
  digit_chars q = digit_chars p ->
  verificationChecks_create env' (plus_digits p) otp = Checked "approved" ->
  let st1 :=
    state_of (post_send_otp env
      {| send_name := name; send_phone := JStr p; send_catalogCode := cat |}
      st) in
  let r :=
    post_verify_otp env' {| verify_phone := JStr q; verify_otp := otp |} st1 in
  outcome_of r = json 200 true None
  /\ leads (state_of r) !! plus_digits p
     = Some {| Lead.name := name; Lead.phone := plus_digits p;
               Lead.verified := true |}
  /\ session_state (state_of r) (plus_digits p) = VERIFIED.
Proof.
  intros Hname Hotp Hp Hq Hdigits Happroved st1 r. subst r st1.
  assert (Hkey : plus_digits q = plus_digits p)
    by (unfold plus_digits; rewrite Hdigits; reflexivity).
  rewrite post_verify_otp_valid by assumption.
  rewrite Hkey, Happroved. cbn [String.eqb Ascii.eqb Bool.eqb].
  rewrite submit_leads by assumption.
  rewrite lookup_insert_eq.
  unfold outcome_of, state_of, session_state. cbn [fst snd leads].
  rewrite lookup_insert_eq. repeat split.
Qed.

Lemma verify_after_submission_witness :
  session_state
    (state_of (post_verify_otp sample_env
                 {| verify_phone := JStr "+15551112222";
                    verify_otp := JStr "123456" |}
                 (state_of (post_send_otp sample_env alice initial))))
    "+15551112222" = VERIFIED.
Proof.
  apply (verify_after_submission sample_env sample_env initial
           (JStr "Alice") JUndefined (JStr "123456")
           "+1 555 111 2222" "+15551112222");
    reflexivity || discriminate.
Defined.

(** ** Table and sessions together *)

Lemma handle_rows_have_sessions (r : Request) (st : State) :
  rows_have_sessions st -> rows_have_sessions (state_of (handle r st)).
Proof.
  unfold rows_have_sessions. intros Hinv.
  destruct r as [env req | env req | env]; cbn [handle].
  - rewrite post_send_otp_state.
    destruct (send_phone req) as [| | b | n | p |]; try exact Hinv.
    destruct (truthy (send_name req) && negb (String.eqb p EmptyString));
      [| exact Hinv].
    cbn [leads db]. intros row Hrow.
    assert (Hcases : In row (Db.rows (db st))
                     \/ Db.row_phone row = plus_digits p).
    { unfold Db.insert_lead in Hrow.
      destruct (db_io env); [| left; exact Hrow].
      destruct (Db.sql_null (send_name req)); [left; exact Hrow |].
      cbn [snd Db.rows] in Hrow. apply in_app_or in Hrow as [Hold | Hnew];
        [left; exact Hold | right].
      destruct Hnew as [<- | []]. reflexivity. }
    destruct Hcases as [Hold | ->].
    + destruct (decide (plus_digits p = Db.row_phone row)) as [<- | Hne].
      * rewrite lookup_insert_eq. eauto.
      * rewrite lookup_insert_ne by assumption. apply Hinv, Hold.
    + rewrite lookup_insert_eq. eauto.
  - destruct (post_verify_otp_cases env st req)
      as [-> [-> | (key & lead & Hlead & ->)]]; [exact Hinv |].
    intros row Hrow.
    destruct (decide (key = Db.row_phone row)) as [<- | Hne].
    + rewrite lookup_insert_eq. eauto.
    + rewrite lookup_insert_ne by assumption. apply Hinv, Hrow.
  - rewrite get_export_leads_state. exact Hinv.
Qed.

(** X18: every row written since the server started with an empty table
    has a session in [leads] under the phone stored in the row: the
    INSERT is always preceded by the session write, and sessions are not
    removed. *)
Theorem stored_leads_have_sessions (rs : list Request) (row : Db.Row) :
  In row (Db.rows (db (run rs initial))) ->
  is_Some (leads (run rs initial) !! Db.row_phone row).
Proof.
  assert (Hrun : forall st,
             rows_have_sessions st -> rows_have_sessions (run rs st)).
  { induction rs as [| r rs IH]; intros st Hinv; simpl; [exact Hinv |].
    apply IH, handle_rows_have_sessions, Hinv. }
  apply (Hrun initial). intros r [].
Qed.

Lemma stored_leads_have_sessions_witness :
  is_Some (leads (run [SendOtp sample_env alice] initial) !! "+15551112222").
Proof.
  apply (stored_leads_have_sessions [SendOtp sample_env alice]
           {| Db.row_id := 1; Db.row_name := JStr "Alice";
              Db.row_phone := "+15551112222"; Db.row_catalog_code := JNull;
              Db.row_created_at := "2024-05-01 10:00:00" |}).
  vm_compute. left. reflexivity.
Defined.

(** ** Calls to the provider *)

(** X19: a request contacts the provider at most once, and each handler
    only in its own way: a submission never checks a code, a verification
    never sends one (and issues no INSERT), an export does neither; every
    send is for the channel [sms]. *)
Theorem provider_calls_per_request (r : Request) (st : State) :
  let t := trace_of (handle r st) in
  (length (sent_to t) + length (checked_to t) <= 1)%nat
  /\ (forall to channel,
        In (VerificationsCreate to channel) t -> channel = "sms")
  /\ match r with
     | SendOtp _ _ => checked_to t = []
     | VerifyOtp _ _ => sent_to t = [] /\ inserted t = []
     | ExportLeads _ => sent_to t = [] /\ checked_to t = [] /\ inserted t = []
     end.
Proof.
  destruct r as [env req | env req | env]; cbn [handle].
  - unfold post_send_otp.
    destruct (negb _ || negb _);
      [cbn; repeat split; try lia; intros ? ? [] |].
    destruct (send_phone req);
      try (cbn; repeat split; try lia; intros ? ? []).
    destruct (Db.insert_lead _ _ _ _ _) as [[message |] db'];
      destruct (verifications_create _ _ _);
      cbn; (repeat split; try lia);
      intros to channel H; repeat destruct H as [H | H];
      try discriminate; try contradiction; congruence.
  - unfold post_verify_otp.
    destruct (negb _ || negb _);
      [cbn; repeat split; try lia; intros ? ? [] |].
    destruct (verify_phone req);
      try (cbn; repeat split; try lia; intros ? ? []).
    destruct (verificationChecks_create _ _ _) as [answer | message];
      [destruct (String.eqb answer "approved") |];
      cbn; (repeat split; try lia);
      intros to channel H; repeat destruct H as [H | H];
      try discriminate; try contradiction.
  - unfold get_export_leads.
    destruct (Db.select_leads _ _) as [[message |] [[| row rest] |]];
      try destruct (xlsx_write env _);
      cbn; (repeat split; try lia);
      intros to channel H; repeat destruct H as [H | H];
      try discriminate; try contradiction.
Qed.
